(** * LiMAX17048G: a driver for the MAX17048/MAX17049 fuel gauges

    A shallow embedding of [LiMAX17048G.cpp] and [LiMAX17048G.h].  The driver
    talks to the chip through the Arduino [Wire] object; every method is a
    short sequence of [Wire] calls, so the methods are written here in a state
    monad over the state of the bus, one monadic action per [Wire] call, in
    the order of the source. *)

From Stdlib Require Import ZArith List Lia Bool.
From Stdlib Require Import Floats.PrimFloat Floats.FloatAxioms.
From Stdlib Require Import Numbers.Cyclic.Int63.Uint63.
From stdpp Require Import gmap.

Set Warnings "-inexact-float".
Local Open Scope Z_scope.

(** ** Machine integers *)

(** Conversion to [uint8_t] (and to [byte]): the value modulo 256. *)
Definition u8 (x : Z) : Z := x mod 256.

Definition is_byte (x : Z) : Prop := 0 <= x < 256.

(** [int] to [double]. *)
Definition double_of_int (z : Z) : float :=
  if z <? 0 then PrimFloat.opp (PrimFloat.of_uint63 (Uint63.of_Z (- z)))
  else PrimFloat.of_uint63 (Uint63.of_Z z).

(** ** LiMAX17048G.h *)

(** [enum gaugeType { MAX17048 = 1, MAX17049 = 2 }]. *)
Inductive gaugeType : Set := MAX17048 | MAX17049.

Definition gaugeType_value (ic : gaugeType) : Z :=
  match ic with
  | MAX17048 => 1
  | MAX17049 => 2
  end.

Definition MAX1704X_ADDR : Z := 0x36.
Definition MAX1704X_VCELL_ADDR : Z := 0x02.
Definition MAX1704X_SOC_ADDR : Z := 0x04.
Definition MAX1704X_MODE_ADDR : Z := 0x06.
Definition MAX1704X_VERSION_ADDR : Z := 0x08.
Definition MAX1704X_CONFIG_ADDR : Z := 0x0C.
Definition MAX1704X_RCOMP_ADDR : Z := 0x0C.
Definition MAX1704X_ATHRD_ADDR : Z := 0x0D.
Definition MAX1704X_COMMAND_ADDR : Z := 0xFE.

(** ** The bus and the chip behind it *)

Module Wire.

(** Modelled from the spec: the bus transport (the Arduino [Wire] object) and
    the register file of the chip are not part of the repository.  The spec
    gives the transport as begin-transaction(address), write(byte) x N,
    end-transaction(stop) returning a completion code, begin-read(address,
    count) and read() returning the next byte, and the chip as a register map
    of bytes.  The chip keeps an address pointer: the first byte of a write
    transaction sets it, the bytes after it are stored at consecutive
    addresses, and a read transfers the bytes from the pointer on.  The
    completion codes of the coming transactions are a script held in the
    state, so that every outcome of the transport can be played; a transaction
    whose code is not 0 does not reach the chip.  What the chip does on its
    own when a command register is written is left out: the command bytes are
    stored like any others. *)
Record Bus : Type := mkBus {
  chip_regs : gmap Z Z;           (* the registers of the chip, by byte address *)
  chip_ptr : Z;                   (* the address pointer of the chip *)
  tx_addr : Z;                    (* device address of the open transaction *)
  tx_buf : list Z;                (* bytes queued by write *)
  rx_buf : list Z;                (* bytes received and not yet read *)
  pending : list Z;               (* completion codes of the coming transactions *)
  traffic : list (list Z * Z)     (* closed transactions with their codes, newest first *)
}.

(** A register that was never written reads as 0. *)
Definition peek (regs : gmap Z Z) (a : Z) : Z := default 0 (regs !! a).

Definition poke (regs : gmap Z Z) (a v : Z) : gmap Z Z := <[a := v]> regs.

Fixpoint store (regs : gmap Z Z) (a : Z) (data : list Z) : gmap Z Z :=
  match data with
  | [] => regs
  | v :: data' => store (poke regs a v) (a + 1) data'
  end.

Fixpoint load (regs : gmap Z Z) (a : Z) (n : nat) : list Z :=
  match n with
  | O => []
  | S n' => peek regs a :: load regs (a + 1) n'
  end.

(** The state monad of the driver's methods. *)
Definition M (A : Type) : Type := Bus -> A * Bus.

Definition ret {A : Type} (a : A) : M A := fun b => (a, b).

Definition bind {A B : Type} (m : M A) (k : A -> M B) : M B :=
  fun b => let '(a, b') := m b in k a b'.

Definition beginTransmission (addr : Z) : M unit := fun b =>
  (tt, mkBus (chip_regs b) (chip_ptr b) addr [] (rx_buf b) (pending b) (traffic b)).

Definition write (v : Z) : M unit := fun b =>
  (tt, mkBus (chip_regs b) (chip_ptr b) (tx_addr b) (tx_buf b ++ [u8 v])
         (rx_buf b) (pending b) (traffic b)).

(** The frame reaches the chip when the transaction completes with code 0:
    its first byte is the register address, the rest is stored from there. *)
Definition deliver_regs (regs : gmap Z Z) (frame : list Z) : gmap Z Z :=
  match frame with
  | [] => regs
  | a :: data => store regs a data
  end.

Definition deliver_ptr (ptr : Z) (frame : list Z) : Z :=
  match frame with
  | [] => ptr
  | a :: data => a + Z.of_nat (length data)
  end.

Definition reaches_chip (code addr : Z) : bool :=
  (code =? 0) && (addr =? MAX1704X_ADDR).

Definition endTransmission (stop : bool) : M Z := fun b =>
  let code := hd 0 (pending b) in
  let ok := reaches_chip code (tx_addr b) in
  (code,
   mkBus (if ok then deliver_regs (chip_regs b) (tx_buf b) else chip_regs b)
         (if ok then deliver_ptr (chip_ptr b) (tx_buf b) else chip_ptr b)
         (tx_addr b) [] (rx_buf b) (tl (pending b))
         ((tx_buf b, code) :: traffic b)).

Definition requestFrom (addr : Z) (n : nat) : M unit := fun b =>
  let ok := addr =? MAX1704X_ADDR in
  (tt,
   mkBus (chip_regs b)
         (if ok then chip_ptr b + Z.of_nat n else chip_ptr b)
         (tx_addr b) (tx_buf b)
         (if ok then load (chip_regs b) (chip_ptr b) n else [])
         (pending b) (traffic b)).

(** [Wire.read()] returns an [int]: the next byte, or -1 when none is left. *)
Definition read : M Z := fun b =>
  match rx_buf b with
  | [] => (-1, b)
  | v :: rest =>
      (v, mkBus (chip_regs b) (chip_ptr b) (tx_addr b) (tx_buf b) rest
            (pending b) (traffic b))
  end.

End Wire.

Notation "x <- m ;; k" := (Wire.bind m (fun x => k))
  (at level 100, m at next level, right associativity).
Notation "m ;; k" := (Wire.bind m (fun _ => k))
  (at level 100, right associativity).

(** ** LiMAX17048G.cpp *)

Module MAX17048G.

Import Wire.

(** The clamp of [setAlertThreshold]:
    [if ( thrd > 32 ) thrd = 32; else if ( thrd < 1 ) thrd = 1;]. *)
Definition clampThreshold (thrd : Z) : Z :=
  if thrd >? 32 then 32 else if thrd <? 1 then 1 else thrd.

(** The encoding of [setAlertThreshold], after the clamp:
    [thrd = ( ~thrd + 1 ) & 0x1F;], the operand promoted to [int] and the
    result stored in a [uint8_t]. *)
Definition encodeThreshold (thrd : Z) : Z :=
  u8 (Z.land (Z.lnot (clampThreshold thrd) + 1) 0x1F).

(** The decoding of [getAlertThreshold]: [( ~status & 0x1F ) + 1], the operand
    promoted to [int] and the result returned as a [uint8_t]. *)
Definition decodeThreshold (status : Z) : Z :=
  u8 (Z.land (Z.lnot status) 0x1F + 1).

Definition getCompensation : M Z :=
  beginTransmission MAX1704X_ADDR ;;
  write MAX1704X_RCOMP_ADDR ;;
  _ <- endTransmission true ;;
  requestFrom MAX1704X_ADDR 2 ;;
  MSB <- read ;;
  ret (u8 MSB).

Definition getStatus : M Z :=
  beginTransmission MAX1704X_ADDR ;;
  write MAX1704X_ATHRD_ADDR ;;
  _ <- endTransmission true ;;
  requestFrom MAX1704X_ADDR 1 ;;
  v <- read ;;
  ret (u8 v).

Definition getAlertThreshold : M Z :=
  status <- getStatus ;;
  ret (decodeThreshold status).

Definition setCompensation (comp : Z) : M Z :=
  status <- getStatus ;;
  beginTransmission MAX1704X_ADDR ;;
  write MAX1704X_CONFIG_ADDR ;;
  write comp ;;
  write status ;;
  endTransmission true.

(** The parameter [thrd] is a [uint8_t]: the argument is converted at the
    call, before the clamp. *)
Definition setAlertThreshold (thrd : Z) : M Z :=
  let thrd := u8 thrd in
  let thrd := encodeThreshold thrd in
  beginTransmission MAX1704X_ADDR ;;
  write MAX1704X_CONFIG_ADDR ;;
  _ <- endTransmission false ;;
  requestFrom MAX1704X_ADDR 2 ;;
  c <- read ;;
  let comp := u8 c in
  s <- read ;;
  let sleepBit := u8 (Z.land s 0x80) in
  beginTransmission MAX1704X_ADDR ;;
  write MAX1704X_CONFIG_ADDR ;;
  write comp ;;
  write (Z.lor sleepBit thrd) ;;
  endTransmission true.

Definition clearAlertInterrupt : M Z :=
  compensation <- getCompensation ;;
  status <- getStatus ;;
  beginTransmission MAX1704X_ADDR ;;
  write MAX1704X_CONFIG_ADDR ;;
  write compensation ;;
  write (Z.land 0xDF status) ;;
  endTransmission true.

Definition sleep : M Z :=
  compensation <- getCompensation ;;
  threshold <- getAlertThreshold ;;
  beginTransmission MAX1704X_ADDR ;;
  write MAX1704X_CONFIG_ADDR ;;
  write compensation ;;
  write (Z.lor 0x80 threshold) ;;
  endTransmission true.

Definition wake : M Z :=
  compensation <- getCompensation ;;
  threshold <- getAlertThreshold ;;
  beginTransmission MAX1704X_ADDR ;;
  write MAX1704X_CONFIG_ADDR ;;
  write compensation ;;
  write (Z.land 0x7F threshold) ;;
  endTransmission true.

Definition sleeping : M bool :=
  status <- getStatus ;;
  ret (Z.land status 0x80 =? 0x80).

Definition quickStart : M Z :=
  beginTransmission MAX1704X_ADDR ;;
  write MAX1704X_MODE_ADDR ;;
  write 0x40 ;;
  write 0x00 ;;
  endTransmission true.

Definition reset : M Z :=
  beginTransmission MAX1704X_ADDR ;;
  write MAX1704X_COMMAND_ADDR ;;
  write 0x54 ;;
  write 0x00 ;;
  endTransmission true.

(** The return statement of [getVoltage] is
    [( (Wire.read() << 4) + (Wire.read() >> 4) ) * 0.00125 * _ic].  The sum is
    an [int]; it is converted to [double] for the first product, and so is the
    value of the enumerator [_ic] for the second. *)
Definition vcell_value (first second : Z) : Z :=
  Z.shiftl first 4 + Z.shiftr second 4.

Definition to_volts (ic : gaugeType) (value : Z) : float :=
  PrimFloat.mul (PrimFloat.mul (double_of_int value) 0.00125%float)
                (double_of_int (gaugeType_value ic)).

(** The two calls of [Wire.read()] are taken in the order they are written. *)
Definition getVoltage (ic : gaugeType) : M float :=
  _ <- reset ;;
  _ <- quickStart ;;
  beginTransmission MAX1704X_ADDR ;;
  write MAX1704X_VCELL_ADDR ;;
  _ <- endTransmission true ;;
  requestFrom MAX1704X_ADDR 2 ;;
  first <- read ;;
  second <- read ;;
  ret (to_volts ic (vcell_value first second)).

End MAX17048G.

(** ** Vocabulary of the statements *)

Import Wire MAX17048G.

(** No coming transaction fails. *)
Definition healthy_codes (codes : list Z) : Prop := Forall (fun c => c = 0) codes.

Definition healthy (b : Bus) : Prop := healthy_codes (pending b).

(** The configuration register of the chip holds [comp] in its high byte and
    [status] in its low byte. *)
Definition holds_config (b : Bus) (comp status : Z) : Prop :=
  peek (chip_regs b) MAX1704X_CONFIG_ADDR = comp /\
  peek (chip_regs b) MAX1704X_ATHRD_ADDR = status /\
  is_byte comp /\ is_byte status.

(** The voltage register of the chip holds [hi] and [lo]. *)
Definition holds_vcell (b : Bus) (hi lo : Z) : Prop :=
  peek (chip_regs b) MAX1704X_VCELL_ADDR = hi /\
  peek (chip_regs b) (MAX1704X_VCELL_ADDR + 1) = lo /\
  is_byte hi /\ is_byte lo.

(** The transaction closed last, with its completion code. *)
Definition last_transaction (b : Bus) : option (list Z * Z) := head (traffic b).

(** A bus at rest in front of a chip with the given registers. *)
Definition idle_bus (regs : gmap Z Z) (codes : list Z) : Bus :=
  mkBus regs 0 0 [] [] codes [].

(** The chip after power-on: RCOMP 0x97, awake, no alert, threshold 4%;
    the voltage register reads 0x8000. *)
Definition power_on_regs : gmap Z Z :=
  store (store ∅ MAX1704X_CONFIG_ADDR [0x97; 0x1C]) MAX1704X_VCELL_ADDR [0x80; 0x00].

Definition power_on_bus : Bus := idle_bus power_on_regs [].

(** The same chip after an alert has fired: bit 5 of the status byte is set. *)
Definition alerted_bus : Bus :=
  idle_bus (store power_on_regs MAX1704X_CONFIG_ADDR [0x97; 0x3C]) [].

(** The same chip asleep: bit 7 of the status byte is set. *)
Definition asleep_bus : Bus :=
  idle_bus (store power_on_regs MAX1704X_CONFIG_ADDR [0x97; 0x9C]) [].

(** The state in which a write to the configuration register leaves the bus
    [b]: the two bytes stored, the pointer after them, the codes of the
    transactions consumed, and the transactions in the log ([reads] are those
    that came before the write). *)
Definition config_written (b : Bus) (high low : Z) (reads : list (list Z * Z)) : Bus :=
  mkBus (poke (poke (chip_regs b) MAX1704X_CONFIG_ADDR high) MAX1704X_ATHRD_ADDR low)
        14 MAX1704X_ADDR [] []
        (Nat.iter (S (length reads)) (@tl Z) (pending b))
        (([MAX1704X_CONFIG_ADDR; high; low], 0) :: reads ++ traffic b).

(** The write-class methods. *)
Inductive WriteOp : Type :=
  | OpSetCompensation (comp : Z)
  | OpSetAlertThreshold (thrd : Z)
  | OpClearAlertInterrupt
  | OpSleep
  | OpWake
  | OpQuickStart
  | OpReset.

Definition run_write_op (op : WriteOp) : M Z :=
  match op with
  | OpSetCompensation comp => setCompensation comp
  | OpSetAlertThreshold thrd => setAlertThreshold thrd
  | OpClearAlertInterrupt => clearAlertInterrupt
  | OpSleep => sleep
  | OpWake => wake
  | OpQuickStart => quickStart
  | OpReset => reset
  end.

(** How many transactions a write-class method closes, the write included. *)
Definition transactions (op : WriteOp) : nat :=
  match op with
  | OpSetCompensation _ | OpSetAlertThreshold _ => 2
  | OpClearAlertInterrupt | OpSleep | OpWake => 3
  | OpQuickStart | OpReset => 1
  end.

(** The register a write-class method writes. *)
Definition written_register (op : WriteOp) : Z :=
  match op with
  | OpQuickStart => MAX1704X_MODE_ADDR
  | OpReset => MAX1704X_COMMAND_ADDR
  | _ => MAX1704X_CONFIG_ADDR
  end.

Definition is_byteb (x : Z) : bool := (0 <=? x) && (x <? 256).

(** Checking a property of bytes on all 256 of them. *)
Definition all_bytes : list Z := map Z.of_nat (seq 0 256).

Definition byte_forall (p : Z -> bool) : bool := forallb p all_bytes.

(** ** The methods that read the other registers *)

(** Conversion to an [int] of [bits] bits, two's complement: what the
    platform does with a value that does not fit (16 bits on AVR boards, 32
    on ARM and ESP boards). *)
Definition int_of (bits z : Z) : Z :=
  (z + 2 ^ (bits - 1)) mod 2 ^ bits - 2 ^ (bits - 1).

(** The return statement of [getSOC] is
    [Wire.read() + (double) Wire.read() / 256]: the second byte is converted
    to [double] and divided, the first is converted for the sum. *)
Definition soc_percent (first second : Z) : float :=
  PrimFloat.add (double_of_int first)
                (PrimFloat.div (double_of_int second) (double_of_int 256)).

(** The two calls of [Wire.read()] are taken in the order they are written. *)
Definition getSOC : M float :=
  _ <- reset ;;
  _ <- quickStart ;;
  beginTransmission MAX1704X_ADDR ;;
  write MAX1704X_SOC_ADDR ;;
  _ <- endTransmission true ;;
  requestFrom MAX1704X_ADDR 2 ;;
  first <- read ;;
  second <- read ;;
  ret (soc_percent first second).

(** [getVersion] returns [( MSB << 8 ) + LSB] as an [int]; [MSB] and [LSB]
    are of type [byte] and are promoted to [int], whose width [int_bits]
    depends on the board. *)
Definition getVersion (int_bits : Z) : M Z :=
  let MSB := 0 in
  let LSB := 0 in
  beginTransmission MAX1704X_ADDR ;;
  write MAX1704X_VERSION_ADDR ;;
  _ <- endTransmission true ;;
  requestFrom MAX1704X_ADDR 2 ;;
  m <- read ;;
  let MSB := u8 m in
  l <- read ;;
  let LSB := u8 l in
  ret (int_of int_bits (int_of int_bits (Z.shiftl MSB 8) + LSB)).

(** The two-byte register at [addr] holds [hi] and [lo]. *)
Definition holds_word (b : Bus) (addr hi lo : Z) : Prop :=
  peek (chip_regs b) addr = hi /\
  peek (chip_regs b) (addr + 1) = lo /\
  is_byte hi /\ is_byte lo.

(** The power-on chip with a state of charge of 50.5% and version 0x0012. *)
Definition gauge_bus : Bus :=
  idle_bus
    (store (store power_on_regs MAX1704X_SOC_ADDR [50; 128])
           MAX1704X_VERSION_ADDR [0x00; 0x12]) [].

(** The same chip reporting a version with the top bit set. *)
Definition odd_version_bus : Bus :=
  idle_bus (store power_on_regs MAX1704X_VERSION_ADDR [0x80; 0x01]) [].

(** The read-only methods, with the register address each one sends. *)
Inductive ReadOp : Type :=
  | OpGetCompensation
  | OpGetStatus
  | OpGetAlertThreshold
  | OpSleeping
  | OpGetVersion (int_bits : Z).

Definition run_read_op (op : ReadOp) : M unit :=
  match op with
  | OpGetCompensation => _ <- getCompensation ;; ret tt
  | OpGetStatus => _ <- getStatus ;; ret tt
  | OpGetAlertThreshold => _ <- getAlertThreshold ;; ret tt
  | OpSleeping => _ <- sleeping ;; ret tt
  | OpGetVersion int_bits => _ <- getVersion int_bits ;; ret tt
  end.

Definition read_register (op : ReadOp) : Z :=
  match op with
  | OpGetCompensation => MAX1704X_RCOMP_ADDR
  | OpGetStatus | OpGetAlertThreshold | OpSleeping => MAX1704X_ATHRD_ADDR
  | OpGetVersion _ => MAX1704X_VERSION_ADDR
  end.

(** The two measurements, which share their first two transactions. *)
Inductive Measurement : Type :=
  | MeasureVoltage (ic : gaugeType)
  | MeasureSOC.

Definition run_measurement (m : Measurement) : M float :=
  match m with
  | MeasureVoltage ic => getVoltage ic
  | MeasureSOC => getSOC
  end.

Definition measured_register (m : Measurement) : Z :=
  match m with
  | MeasureVoltage _ => MAX1704X_VCELL_ADDR
  | MeasureSOC => MAX1704X_SOC_ADDR
  end.

Arguments int_of : simpl never.
Arguments soc_percent : simpl never.

Arguments u8 : simpl never.
Arguments peek : simpl never.
Arguments poke : simpl never.
Arguments reaches_chip : simpl never.
Arguments vcell_value : simpl never.
Arguments to_volts : simpl never.
Arguments encodeThreshold : simpl never.
Arguments decodeThreshold : simpl never.

(** ** Bytes *)

Section Bytes.

Lemma u8_byte (x : Z) : is_byte x -> u8 x = x.
Proof. unfold is_byte, u8. intros H. apply Z.mod_small. exact H. Qed.

Lemma u8_is_byte (x : Z) : is_byte (u8 x).
Proof. unfold is_byte, u8. apply Z.mod_pos_bound. lia. Qed.

Lemma in_all_bytes (x : Z) : is_byte x -> In x all_bytes.
Proof.
  unfold is_byte, all_bytes. intros H.
  apply in_map_iff. exists (Z.to_nat x). split.
  - lia.
  - apply in_seq. lia.
Qed.

Lemma byte_forall_spec (p : Z -> bool) :
  byte_forall p = true -> forall x, is_byte x -> p x = true.
Proof.
  unfold byte_forall. intros H x Hx.
  rewrite forallb_forall in H. apply H, in_all_bytes, Hx.
Qed.

Lemma land_0x1F (x : Z) : Z.land x 0x1F = x mod 32.
Proof. change 0x1F with (Z.ones 5). rewrite Z.land_ones by lia. reflexivity. Qed.

Lemma lnot_succ_opp (x : Z) : Z.lnot x + 1 = - x.
Proof. unfold Z.lnot. lia. Qed.

End Bytes.

Section ByteChecks.

Lemma is_byteb_spec (x : Z) : is_byteb x = true <-> is_byte x.
Proof. unfold is_byteb, is_byte. rewrite andb_true_iff, Z.leb_le, Z.ltb_lt. tauto. Qed.

Lemma byte_forall2_spec (p : Z -> Z -> bool) :
  byte_forall (fun x => byte_forall (p x)) = true ->
  forall x y, is_byte x -> is_byte y -> p x y = true.
Proof.
  intros H x y Hx Hy.
  apply (byte_forall_spec (p x)); [| exact Hy].
  apply (byte_forall_spec (fun x => byte_forall (p x))); assumption.
Qed.

Lemma land_is_byte (x y : Z) : is_byte x -> is_byte y -> is_byte (Z.land x y).
Proof.
  intros Hx Hy. apply is_byteb_spec.
  apply (byte_forall2_spec (fun x y => is_byteb (Z.land x y))); [| assumption ..].
  vm_compute. reflexivity.
Qed.

Lemma lor_is_byte (x y : Z) : is_byte x -> is_byte y -> is_byte (Z.lor x y).
Proof.
  intros Hx Hy. apply is_byteb_spec.
  apply (byte_forall2_spec (fun x y => is_byteb (Z.lor x y))); [| assumption ..].
  vm_compute. reflexivity.
Qed.

End ByteChecks.

(** ** The threshold encoding *)

Section Threshold.

Lemma clampThreshold_range (thrd : Z) : 1 <= clampThreshold thrd <= 32.
Proof.
  unfold clampThreshold.
  destruct (thrd >? 32) eqn:Hhi; [lia |].
  destruct (thrd <? 1) eqn:Hlo; lia.
Qed.

Lemma clampThreshold_id (thrd : Z) : 1 <= thrd <= 32 -> clampThreshold thrd = thrd.
Proof.
  intros H. unfold clampThreshold.
  destruct (thrd >? 32) eqn:Hhi; [lia |].
  destruct (thrd <? 1) eqn:Hlo; lia.
Qed.

Lemma encodeThreshold_mod (thrd : Z) :
  encodeThreshold thrd = (- clampThreshold thrd) mod 32.
Proof.
  unfold encodeThreshold. rewrite lnot_succ_opp, land_0x1F.
  apply u8_byte. unfold is_byte.
  pose proof (Z.mod_pos_bound (- clampThreshold thrd) 32). lia.
Qed.

Lemma encodeThreshold_range (thrd : Z) : 0 <= encodeThreshold thrd < 32.
Proof. rewrite encodeThreshold_mod. apply Z.mod_pos_bound. lia. Qed.

Lemma decodeThreshold_mod (status : Z) :
  decodeThreshold status = (- status - 1) mod 32 + 1.
Proof.
  unfold decodeThreshold. rewrite land_0x1F.
  replace (Z.lnot status) with (- status - 1) by (unfold Z.lnot; lia).
  apply u8_byte. unfold is_byte.
  pose proof (Z.mod_pos_bound (- status - 1) 32). lia.
Qed.

Lemma decodeThreshold_range (status : Z) : 1 <= decodeThreshold status <= 32.
Proof.
  rewrite decodeThreshold_mod.
  pose proof (Z.mod_pos_bound (- status - 1) 32). lia.
Qed.

Lemma decodeThreshold_is_byte (status : Z) : is_byte (decodeThreshold status).
Proof. pose proof (decodeThreshold_range status). unfold is_byte. lia. Qed.

Lemma encodeThreshold_is_byte (thrd : Z) : is_byte (encodeThreshold thrd).
Proof. pose proof (encodeThreshold_range thrd). unfold is_byte. lia. Qed.

Lemma decode_encode (thrd : Z) :
  decodeThreshold (encodeThreshold thrd) = clampThreshold thrd.
Proof.
  rewrite decodeThreshold_mod, encodeThreshold_mod.
  pose proof (clampThreshold_range thrd) as Hc.
  generalize dependent (clampThreshold thrd). intros c Hc.
  Z.div_mod_to_equations. lia.
Qed.

(** The clamp and the encoding written out. *)
Lemma clampThreshold_max_min (thrd : Z) :
  clampThreshold thrd = Z.max 1 (Z.min 32 thrd).
Proof.
  unfold clampThreshold.
  destruct (thrd >? 32) eqn:Hhi; [lia |].
  destruct (thrd <? 1) eqn:Hlo; lia.
Qed.

Lemma encodeThreshold_explicit (thrd : Z) :
  encodeThreshold thrd = Z.land (- Z.max 1 (Z.min 32 thrd)) 0x1F.
Proof.
  rewrite encodeThreshold_mod, land_0x1F, clampThreshold_max_min. reflexivity.
Qed.

(** The bits above the threshold field do not take part in the decoding. *)
Lemma decodeThreshold_low_bits (status : Z) :
  decodeThreshold (Z.land status 0x1F) = decodeThreshold status.
Proof.
  rewrite !decodeThreshold_mod, land_0x1F.
  Z.div_mod_to_equations. lia.
Qed.

End Threshold.

(** ** Running the methods on a bus whose transactions complete *)

Lemma healthy_hd (l : list Z) : healthy_codes l -> hd 0 l = 0.
Proof. intros H. destruct H as [| c l Hc Hl]; [reflexivity | exact Hc]. Qed.

Lemma healthy_tl (l : list Z) : healthy_codes l -> healthy_codes (tl l).
Proof. intros H. destruct H as [| c l Hc Hl]; [constructor | exact Hl]. Qed.

Lemma peek_poke_eq (regs : gmap Z Z) (a v : Z) : peek (poke regs a v) a = v.
Proof. unfold peek, poke. rewrite lookup_insert_eq. reflexivity. Qed.

Lemma peek_poke_ne (regs : gmap Z Z) (a a' v : Z) :
  a <> a' -> peek (poke regs a v) a' = peek regs a'.
Proof. intros H. unfold peek, poke. rewrite lookup_insert_ne by exact H. reflexivity. Qed.

Ltac wire_unfold :=
  cbv beta iota zeta delta
    [getVoltage reset quickStart sleeping wake sleep clearAlertInterrupt
     setAlertThreshold setCompensation getAlertThreshold getStatus
     getCompensation bind ret read requestFrom endTransmission write
     beginTransmission chip_regs chip_ptr tx_addr tx_buf rx_buf pending traffic
     app MAX1704X_VCELL_ADDR MAX1704X_MODE_ADDR MAX1704X_CONFIG_ADDR
     MAX1704X_RCOMP_ADDR MAX1704X_ATHRD_ADDR MAX1704X_COMMAND_ADDR].

(** The next completion code is 0 on a healthy bus. *)
Ltac code_zero H :=
  match goal with
  | |- context [hd 0 ?l] =>
      rewrite (healthy_hd l) by (repeat apply healthy_tl; exact H)
  end;
  change (reaches_chip 0 _) with true.

(** Closed bytes and addresses are computed. *)
Ltac closed_consts :=
  repeat match goal with
  | |- context [u8 (Zpos ?p)] =>
      let v := eval vm_compute in (u8 (Zpos p)) in change (u8 (Zpos p)) with v
  | |- context [u8 0] => change (u8 0) with 0
  | |- context [Z.of_nat ?n] =>
      let v := eval vm_compute in (Z.of_nat n) in change (Z.of_nat n) with v
  | |- context [Zpos ?p + Zpos ?q] =>
      let v := eval vm_compute in (Zpos p + Zpos q) in
      change (Zpos p + Zpos q) with v
  | |- context [Zpos ?p + 0] => change (Zpos p + 0) with (Zpos p)
  end.

(** Symbolic execution of a method from a bus given by its fields. *)
Ltac wire_run :=
  match goal with
  | H : healthy ?b |- _ =>
      destruct b; unfold healthy, holds_config, holds_vcell in *;
      cbv beta iota zeta delta
        [chip_regs pending traffic MAX1704X_VCELL_ADDR MAX1704X_CONFIG_ADDR
         MAX1704X_ATHRD_ADDR] in *;
      wire_unfold; cbn; repeat (code_zero H; cbn); closed_consts
  end.

Section Execution.

Variables (b : Bus) (comp status : Z).
Hypothesis Hcodes : healthy b.
Hypothesis Hconfig : holds_config b comp status.

Lemma getCompensation_run :
  getCompensation b =
  (comp, mkBus (chip_regs b) 14 MAX1704X_ADDR [] [status] (tl (pending b))
           (([MAX1704X_RCOMP_ADDR], 0) :: traffic b)).
Proof.
  destruct Hconfig as (Hc & Hs & Bc & Bs). wire_run.
  rewrite Hc, Hs, u8_byte by exact Bc. reflexivity.
Qed.

Lemma getStatus_run :
  getStatus b =
  (status, mkBus (chip_regs b) 14 MAX1704X_ADDR [] [] (tl (pending b))
             (([MAX1704X_ATHRD_ADDR], 0) :: traffic b)).
Proof.
  destruct Hconfig as (Hc & Hs & Bc & Bs). wire_run.
  rewrite Hs, u8_byte by exact Bs. reflexivity.
Qed.

Lemma getAlertThreshold_run :
  getAlertThreshold b =
  (decodeThreshold status,
   mkBus (chip_regs b) 14 MAX1704X_ADDR [] [] (tl (pending b))
     (([MAX1704X_ATHRD_ADDR], 0) :: traffic b)).
Proof.
  destruct Hconfig as (Hc & Hs & Bc & Bs). wire_run.
  rewrite Hs, u8_byte by exact Bs. reflexivity.
Qed.

Lemma sleeping_run :
  sleeping b =
  (Z.land status 0x80 =? 0x80,
   mkBus (chip_regs b) 14 MAX1704X_ADDR [] [] (tl (pending b))
     (([MAX1704X_ATHRD_ADDR], 0) :: traffic b)).
Proof.
  destruct Hconfig as (Hc & Hs & Bc & Bs). wire_run.
  rewrite Hs, u8_byte by exact Bs. reflexivity.
Qed.

End Execution.

Section Writes.

Variables (b : Bus) (comp status : Z).
Hypothesis Hcodes : healthy b.
Hypothesis Hconfig : holds_config b comp status.

Lemma setCompensation_run (c : Z) :
  setCompensation c b =
  (0, config_written b (u8 c) status [([MAX1704X_ATHRD_ADDR], 0)]).
Proof.
  destruct Hconfig as (Hc & Hs & Bc & Bs). unfold config_written. wire_run.
  rewrite Hs, !(u8_byte status) by exact Bs. reflexivity.
Qed.

Lemma setAlertThreshold_run (thrd : Z) :
  setAlertThreshold thrd b =
  (0, config_written b comp
        (Z.lor (Z.land status 0x80) (encodeThreshold (u8 thrd)))
        [([MAX1704X_CONFIG_ADDR], 0)]).
Proof.
  destruct Hconfig as (Hc & Hs & Bc & Bs). unfold config_written. wire_run.
  rewrite Hc, Hs.
  assert (B80 : is_byte (Z.land status 128))
    by (apply land_is_byte; [exact Bs | unfold is_byte; lia]).
  rewrite (u8_byte (Z.land status 128)) by exact B80.
  rewrite (u8_byte (Z.lor _ _))
    by (apply lor_is_byte; [exact B80 | apply encodeThreshold_is_byte]).
  rewrite !(u8_byte comp) by exact Bc. reflexivity.
Qed.

Lemma clearAlertInterrupt_run :
  clearAlertInterrupt b =
  (0, config_written b comp (Z.land 0xDF status)
        [([MAX1704X_ATHRD_ADDR], 0); ([MAX1704X_RCOMP_ADDR], 0)]).
Proof.
  destruct Hconfig as (Hc & Hs & Bc & Bs). unfold config_written. wire_run.
  rewrite Hc, Hs, (u8_byte status) by exact Bs.
  rewrite (u8_byte (Z.land _ _))
    by (apply land_is_byte; [unfold is_byte; lia | exact Bs]).
  rewrite !(u8_byte comp) by exact Bc. reflexivity.
Qed.

Lemma sleep_run :
  sleep b =
  (0, config_written b comp (Z.lor 0x80 (decodeThreshold status))
        [([MAX1704X_ATHRD_ADDR], 0); ([MAX1704X_RCOMP_ADDR], 0)]).
Proof.
  destruct Hconfig as (Hc & Hs & Bc & Bs). unfold config_written. wire_run.
  rewrite Hc, Hs, (u8_byte status) by exact Bs.
  rewrite (u8_byte (Z.lor _ _))
    by (apply lor_is_byte; [unfold is_byte; lia | apply decodeThreshold_is_byte]).
  rewrite !(u8_byte comp) by exact Bc. reflexivity.
Qed.

Lemma wake_run :
  wake b =
  (0, config_written b comp (Z.land 0x7F (decodeThreshold status))
        [([MAX1704X_ATHRD_ADDR], 0); ([MAX1704X_RCOMP_ADDR], 0)]).
Proof.
  destruct Hconfig as (Hc & Hs & Bc & Bs). unfold config_written. wire_run.
  rewrite Hc, Hs, (u8_byte status) by exact Bs.
  rewrite (u8_byte (Z.land _ _))
    by (apply land_is_byte; [unfold is_byte; lia | apply decodeThreshold_is_byte]).
  rewrite !(u8_byte comp) by exact Bc. reflexivity.
Qed.

(** What a write to the configuration register leaves on the bus. *)
Lemma config_written_healthy (high low : Z) (reads : list (list Z * Z)) :
  healthy (config_written b high low reads).
Proof.
  unfold healthy, config_written. cbn [pending].
  generalize (S (length reads)). intros n.
  induction n as [| n IH]; cbn [Nat.iter]; [exact Hcodes | apply healthy_tl, IH].
Qed.

Lemma config_written_holds (high low : Z) (reads : list (list Z * Z)) :
  is_byte high -> is_byte low ->
  holds_config (config_written b high low reads) high low.
Proof.
  intros Bh Bl. unfold holds_config, config_written. cbn [chip_regs].
  repeat split; try apply Bh; try apply Bl.
  - rewrite peek_poke_ne by (unfold MAX1704X_ATHRD_ADDR, MAX1704X_CONFIG_ADDR; lia).
    apply peek_poke_eq.
  - apply peek_poke_eq.
Qed.

End Writes.

(** ** The threshold round trip *)

(** C3: for every percent from 1 to 32, decoding the two's-complement encoding
    gives the percent back: [((~((-percent) & 0x1F)) & 0x1F) + 1 = percent],
    and so [getAlertThreshold]'s decoding inverts [setAlertThreshold]'s
    encoding on that range. *)
Theorem decode_inverts_encode (percent : Z) :
  1 <= percent <= 32 ->
  Z.land (Z.lnot (Z.land (- percent) 0x1F)) 0x1F + 1 = percent /\
  encodeThreshold percent = Z.land (- percent) 0x1F /\
  decodeThreshold (encodeThreshold percent) = percent.
Proof.
  intros H.
  assert (He : encodeThreshold percent = Z.land (- percent) 0x1F).
  { rewrite encodeThreshold_mod, land_0x1F, clampThreshold_id by exact H.
    reflexivity. }
  assert (Hd : decodeThreshold (encodeThreshold percent) = percent).
  { rewrite decode_encode. apply clampThreshold_id, H. }
  split; [| split; [exact He | exact Hd]].
  rewrite <- He.
  pose proof (decodeThreshold_range (encodeThreshold percent)) as Hr.
  unfold decodeThreshold in Hd, Hr.
  rewrite u8_byte in Hd; [exact Hd |].
  unfold is_byte. rewrite land_0x1F in *.
  pose proof (Z.mod_pos_bound (Z.lnot (encodeThreshold percent)) 32). lia.
Qed.

Lemma decode_inverts_encode_witness :
  Z.land (Z.lnot (Z.land (- 10) 0x1F)) 0x1F + 1 = 10 /\
  encodeThreshold 10 = Z.land (- 10) 0x1F /\
  decodeThreshold (encodeThreshold 10) = 10.
Proof. apply (decode_inverts_encode 10). lia. Defined.

(** C10: whatever the status byte is, the sleep and alert bits included,
    [getAlertThreshold] returns a value from 1 to 32: [((~status) & 0x1F) + 1]
    is bounded by its mask. *)
Theorem getAlertThreshold_range (b : Bus) (status : Z) :
  1 <= fst (getAlertThreshold b) <= 32 /\
  1 <= decodeThreshold status <= 32 /\
  decodeThreshold status = Z.land (Z.lnot status) 0x1F + 1.
Proof.
  split; [| split].
  - unfold getAlertThreshold, bind, ret.
    destruct (getStatus b) as [s b']. cbn [fst].
    apply decodeThreshold_range.
  - apply decodeThreshold_range.
  - rewrite decodeThreshold_mod, land_0x1F.
    replace (Z.lnot status) with (- status - 1) by (unfold Z.lnot; lia).
    reflexivity.
Qed.

(** ** Reading the compensation byte *)

(** C8: [getCompensation] asks for two bytes of the configuration register in
    one read and returns the first of them, the RCOMP byte; the status byte
    that came with it stays unread in the receive buffer, and the next read
    request drops it. *)
Theorem getCompensation_first_byte (b : Bus) (comp status : Z) :
  healthy b -> holds_config b comp status ->
  fst (getCompensation b) = comp /\
  rx_buf (snd (getCompensation b)) = [status] /\
  last_transaction (snd (getCompensation b)) = Some ([MAX1704X_RCOMP_ADDR], 0) /\
  chip_regs (snd (getCompensation b)) = chip_regs b /\
  forall n, rx_buf (snd (requestFrom MAX1704X_ADDR n (snd (getCompensation b)))) =
            load (chip_regs b) 14 n.
Proof.
  intros Hcodes Hconfig.
  rewrite (getCompensation_run b comp status Hcodes Hconfig).
  cbn [fst snd rx_buf chip_regs]. repeat split.
Qed.

(** The hypotheses on a concrete bus are settled by evaluation. *)
Ltac concrete_bus :=
  lazymatch goal with
  | |- healthy _ => unfold healthy; cbn; constructor
  | |- holds_config _ _ _ =>
      unfold holds_config, is_byte; repeat split; try lia; vm_compute; reflexivity
  | |- holds_vcell _ _ _ =>
      unfold holds_vcell, is_byte; repeat split; try lia; vm_compute; reflexivity
  end.

Lemma getCompensation_first_byte_witness :
  fst (getCompensation power_on_bus) = 0x97 /\
  rx_buf (snd (getCompensation power_on_bus)) = [0x1C].
Proof.
  pose proof (getCompensation_first_byte power_on_bus 0x97 0x1C) as H.
  destruct H as (H1 & H2 & _); [concrete_bus | concrete_bus |].
  split; [exact H1 | exact H2].
Defined.

(** ** Clearing the alert *)

Lemma land_0xDF_bits (status : Z) :
  Z.testbit (Z.land 0xDF status) 5 = false /\
  Z.testbit (Z.land 0xDF status) 7 = Z.testbit status 7 /\
  Z.land (Z.land 0xDF status) 0x1F = Z.land status 0x1F.
Proof.
  repeat split.
  - rewrite Z.land_spec. reflexivity.
  - rewrite Z.land_spec. reflexivity.
  - rewrite (Z.land_comm 0xDF status), <- Z.land_assoc. reflexivity.
Qed.

(** C5: [clearAlertInterrupt] writes the compensation byte back as it was and
    the status byte [status & 0xDF]: bit 5, the alert flag, is cleared, and
    bit 7 and bits 4-0 keep their values. *)
Theorem clearAlertInterrupt_clears_bit5 (b : Bus) (comp status : Z) :
  healthy b -> holds_config b comp status ->
  let b' := snd (clearAlertInterrupt b) in
  fst (clearAlertInterrupt b) = 0 /\
  last_transaction b' = Some ([MAX1704X_CONFIG_ADDR; comp; Z.land status 0xDF], 0) /\
  holds_config b' comp (Z.land status 0xDF) /\
  Z.testbit (Z.land status 0xDF) 5 = false /\
  Z.testbit (Z.land status 0xDF) 7 = Z.testbit status 7 /\
  Z.land (Z.land status 0xDF) 0x1F = Z.land status 0x1F.
Proof.
  intros Hcodes Hconfig b'. subst b'.
  rewrite (clearAlertInterrupt_run b comp status Hcodes Hconfig).
  cbn [fst snd]. rewrite (Z.land_comm status 0xDF).
  destruct (land_0xDF_bits status) as (H5 & H7 & Hlow).
  destruct Hconfig as (_ & _ & Bc & Bs).
  assert (Bl : is_byte (Z.land 0xDF status))
    by (apply land_is_byte; [unfold is_byte; lia | exact Bs]).
  split; [reflexivity |]. split; [reflexivity |].
  split; [apply config_written_holds; assumption |].
  split; [exact H5 |]. split; [exact H7 | exact Hlow].
Qed.

Lemma clearAlertInterrupt_clears_bit5_witness :
  fst (clearAlertInterrupt alerted_bus) = 0 /\
  last_transaction (snd (clearAlertInterrupt alerted_bus)) =
    Some ([MAX1704X_CONFIG_ADDR; 0x97; 0x1C], 0).
Proof.
  pose proof (clearAlertInterrupt_clears_bit5 alerted_bus 0x97 0x3C) as H.
  destruct H as (H1 & H2 & _); [concrete_bus | concrete_bus |].
  split; [exact H1 | exact H2].
Defined.

(** ** Setting the threshold *)

Lemma threshold_packing (status e : Z) :
  is_byte status -> 0 <= e < 32 ->
  Z.land (Z.lor (Z.land status 0x80) e) 0x80 = Z.land status 0x80 /\
  Z.land (Z.lor (Z.land status 0x80) e) 0x1F = e.
Proof.
  intros Hs He.
  assert (Be : is_byte e) by (unfold is_byte; lia).
  pose proof (byte_forall2_spec
    (fun s e => (32 <=? e) ||
       ((Z.land (Z.lor (Z.land s 0x80) e) 0x80 =? Z.land s 0x80) &&
        (Z.land (Z.lor (Z.land s 0x80) e) 0x1F =? e)))
    ltac:(vm_compute; reflexivity) status e Hs Be) as H.
  cbv beta in H.
  apply orb_true_iff in H. destruct H as [H | H]; [apply Z.leb_le in H; lia |].
  apply andb_true_iff in H. destruct H as [H1 H2].
  apply Z.eqb_eq in H1, H2. split; assumption.
Qed.

(** C4: [setAlertThreshold] clamps its input to 1..32 without an error: an
    input of 0 counts as 1, an input above 32 as 32, and an input from 1 to
    32 as itself; the threshold read afterwards is that clamped input, and
    the compensation byte and the sleep flag read before the call are the
    ones read after it. *)
Theorem setAlertThreshold_roundtrip (thrd : Z) (b : Bus) (comp status : Z) :
  is_byte thrd -> healthy b -> holds_config b comp status ->
  let b' := snd (setAlertThreshold thrd b) in
  let t := fst (getAlertThreshold b') in
  fst (setAlertThreshold thrd b) = 0 /\
  t = Z.max 1 (Z.min 32 thrd) /\
  (thrd = 0 -> t = 1) /\
  (1 <= thrd <= 32 -> t = thrd) /\
  (32 < thrd -> t = 32) /\
  1 <= t <= 32 /\
  fst (getCompensation b') = fst (getCompensation b) /\
  fst (sleeping b') = fst (sleeping b) /\
  peek (chip_regs b') MAX1704X_CONFIG_ADDR = comp /\
  Z.land (peek (chip_regs b') MAX1704X_ATHRD_ADDR) 0x80 = Z.land status 0x80.
Proof.
  intros Bt Hcodes Hconfig b' t. subst t b'.
  rewrite (setAlertThreshold_run b comp status Hcodes Hconfig).
  rewrite (u8_byte thrd) by exact Bt.
  cbn [fst snd].
  set (reads := [([MAX1704X_CONFIG_ADDR], 0)]).
  set (status' := Z.lor (Z.land status 0x80) (encodeThreshold thrd)).
  destruct (threshold_packing status (encodeThreshold thrd)) as [H7 Hlow];
    [apply Hconfig | apply encodeThreshold_range |].
  fold status' in H7, Hlow.
  assert (Bs' : is_byte status').
  { apply lor_is_byte; [| apply encodeThreshold_is_byte].
    apply land_is_byte; [apply Hconfig | unfold is_byte; lia]. }
  assert (Bc : is_byte comp) by apply Hconfig.
  pose proof (config_written_healthy b Hcodes comp status' reads) as Hcodes'.
  pose proof (config_written_holds b comp status' reads Bc Bs') as Hconfig'.
  rewrite (getAlertThreshold_run _ comp status' Hcodes' Hconfig').
  rewrite (getCompensation_run _ comp status' Hcodes' Hconfig').
  rewrite (getCompensation_run b comp status Hcodes Hconfig).
  rewrite (sleeping_run _ comp status' Hcodes' Hconfig').
  rewrite (sleeping_run b comp status Hcodes Hconfig).
  cbn [fst].
  destruct Hconfig' as (Hc' & Hs' & _).
  rewrite Hc', Hs', H7.
  assert (Ht : decodeThreshold status' = Z.max 1 (Z.min 32 thrd)).
  { rewrite <- decodeThreshold_low_bits, Hlow, decode_encode.
    apply clampThreshold_max_min. }
  rewrite Ht.
  split; [reflexivity |]. split; [reflexivity |].
  split; [intros H0; lia |]. split; [intros Hin; lia |].
  split; [intros Hbig; lia |]. split; [lia |].
  repeat split.
Qed.

Lemma setAlertThreshold_roundtrip_witness :
  fst (getAlertThreshold (snd (setAlertThreshold 0 asleep_bus))) = 1 /\
  fst (getAlertThreshold (snd (setAlertThreshold 10 asleep_bus))) = 10 /\
  fst (getAlertThreshold (snd (setAlertThreshold 99 asleep_bus))) = 32 /\
  fst (sleeping (snd (setAlertThreshold 99 asleep_bus))) = fst (sleeping asleep_bus).
Proof.
  pose proof (setAlertThreshold_roundtrip 0 asleep_bus 0x97 0x9C) as H0.
  pose proof (setAlertThreshold_roundtrip 10 asleep_bus 0x97 0x9C) as H10.
  pose proof (setAlertThreshold_roundtrip 99 asleep_bus 0x97 0x9C) as H99.
  cbv zeta in H0, H10, H99.
  destruct H0 as (_ & _ & H0 & _);
    [unfold is_byte; lia | concrete_bus | concrete_bus |].
  destruct H10 as (_ & _ & _ & H10 & _);
    [unfold is_byte; lia | concrete_bus | concrete_bus |].
  destruct H99 as (_ & _ & _ & _ & H99 & _ & _ & Hsl & _);
    [unfold is_byte; lia | concrete_bus | concrete_bus |].
  split; [apply H0; reflexivity |].
  split; [apply H10; lia |].
  split; [apply H99; lia | exact Hsl].
Defined.

(** ** Sleeping and waking *)

Lemma sleep_bit_written (d : Z) :
  is_byte d ->
  (Z.land (Z.lor 0x80 d) 0x80 =? 0x80) = true /\
  (Z.land (Z.land 0x7F d) 0x80 =? 0x80) = false /\
  Z.testbit (Z.lor 0x80 d) 7 = true /\
  Z.testbit (Z.land 0x7F d) 7 = false /\
  (Z.land d 0x80 =? 0x80) = Z.testbit d 7.
Proof.
  intros Hd.
  pose proof (byte_forall_spec
    (fun d => (Z.land (Z.lor 0x80 d) 0x80 =? 0x80) &&
              negb (Z.land (Z.land 0x7F d) 0x80 =? 0x80) &&
              Bool.eqb (Z.land d 0x80 =? 0x80) (Z.testbit d 7))
    ltac:(vm_compute; reflexivity) d Hd) as H.
  cbv beta in H.
  apply andb_true_iff in H. destruct H as [H H3].
  apply andb_true_iff in H. destruct H as [H1 H2].
  apply negb_true_iff in H2. apply eqb_prop in H3.
  repeat split; try assumption.
  - rewrite Z.lor_spec. reflexivity.
  - rewrite Z.land_spec. reflexivity.
Qed.

(** C6: after [sleep], [sleeping] returns true; after [wake], it returns
    false; [sleeping] is true exactly when bit 7 of the status byte is set,
    and the status bytes written have bit 7 set and clear. *)
Theorem sleep_wake_sleeping (b : Bus) (comp status : Z) :
  healthy b -> holds_config b comp status ->
  fst (sleeping (snd (sleep b))) = true /\
  fst (sleeping (snd (wake b))) = false /\
  fst (sleeping b) = Z.testbit status 7 /\
  Z.testbit (peek (chip_regs (snd (sleep b))) MAX1704X_ATHRD_ADDR) 7 = true /\
  Z.testbit (peek (chip_regs (snd (wake b))) MAX1704X_ATHRD_ADDR) 7 = false.
Proof.
  intros Hcodes Hconfig.
  rewrite (sleep_run b comp status Hcodes Hconfig).
  rewrite (wake_run b comp status Hcodes Hconfig).
  rewrite (sleeping_run b comp status Hcodes Hconfig).
  cbn [fst snd].
  set (reads := [([MAX1704X_ATHRD_ADDR], 0); ([MAX1704X_RCOMP_ADDR], 0)]).
  pose proof (decodeThreshold_is_byte status) as Bd.
  destruct (sleep_bit_written (decodeThreshold status) Bd)
    as (Hs1 & Hw1 & Hs2 & Hw2 & _).
  destruct (sleep_bit_written status) as (_ & _ & _ & _ & H7); [apply Hconfig |].
  assert (Bc : is_byte comp) by apply Hconfig.
  assert (Bsl : is_byte (Z.lor 0x80 (decodeThreshold status)))
    by (apply lor_is_byte; [unfold is_byte; lia | exact Bd]).
  assert (Bwk : is_byte (Z.land 0x7F (decodeThreshold status)))
    by (apply land_is_byte; [unfold is_byte; lia | exact Bd]).
  pose proof (config_written_healthy b Hcodes) as Hh.
  pose proof (config_written_holds b comp _ reads Bc Bsl) as Hsl.
  pose proof (config_written_holds b comp _ reads Bc Bwk) as Hwk.
  rewrite (sleeping_run _ comp _ (Hh _ _ _) Hsl).
  rewrite (sleeping_run _ comp _ (Hh _ _ _) Hwk).
  cbn [fst].
  destruct Hsl as (_ & Hsl & _). destruct Hwk as (_ & Hwk & _).
  rewrite Hsl, Hwk.
  repeat split; assumption.
Qed.

Lemma sleep_wake_sleeping_witness :
  fst (sleeping (snd (sleep power_on_bus))) = true /\
  fst (sleeping (snd (wake asleep_bus))) = false.
Proof.
  split.
  - apply (sleep_wake_sleeping power_on_bus 0x97 0x1C); concrete_bus.
  - apply (sleep_wake_sleeping asleep_bus 0x97 0x9C); concrete_bus.
Defined.

(** ** The voltage *)

Lemma vcell_value_shift (hi lo : Z) :
  is_byte hi -> is_byte lo ->
  vcell_value hi lo = Z.shiftr (hi * 256 + lo) 4.
Proof.
  unfold is_byte, vcell_value. intros Hhi Hlo.
  rewrite Z.shiftl_mul_pow2, !Z.shiftr_div_pow2 by lia.
  change (2 ^ 4) with 16.
  Z.div_mod_to_equations. lia.
Qed.

Lemma getVoltage_run (ic : gaugeType) (b : Bus) (hi lo : Z) :
  healthy b -> holds_vcell b hi lo ->
  fst (getVoltage ic b) = to_volts ic (vcell_value hi lo) /\
  traffic (snd (getVoltage ic b)) =
    ([MAX1704X_VCELL_ADDR], 0) :: ([MAX1704X_MODE_ADDR; 0x40; 0x00], 0)
    :: ([MAX1704X_COMMAND_ADDR; 0x54; 0x00], 0) :: traffic b.
Proof.
  intros Hcodes (Hhi & Hlo & Bhi & Blo). wire_run.
  change (2 + 1) with 3 in Hlo.
  rewrite !peek_poke_ne by lia. rewrite Hhi, Hlo. split; reflexivity.
Qed.

(** C7: [getVoltage] reads the two bytes of the voltage register, high byte
    first, and returns [(raw16 >> 4) * 0.00125 * multiplier] in [double]
    arithmetic, the multiplier being 1 for the MAX17048 and 2 for the
    MAX17049; for the bytes 0x80, 0x00 the result is 2.56 and 5.12. *)
Theorem getVoltage_conversion (ic : gaugeType) (b : Bus) (hi lo : Z) :
  healthy b -> holds_vcell b hi lo ->
  fst (getVoltage ic b) =
    PrimFloat.mul
      (PrimFloat.mul (double_of_int (Z.shiftr (hi * 256 + lo) 4)) 0.00125%float)
      (double_of_int (match ic with MAX17048 => 1 | MAX17049 => 2 end)) /\
  (hi = 0x80 -> lo = 0x00 ->
   Z.shiftr (hi * 256 + lo) 4 = 2048 /\
   fst (getVoltage ic b) =
     match ic with MAX17048 => 2.56%float | MAX17049 => 5.12%float end).
Proof.
  intros Hcodes Hvcell.
  destruct (getVoltage_run ic b hi lo Hcodes Hvcell) as [Hv _].
  rewrite Hv.
  rewrite vcell_value_shift by apply Hvcell.
  split.
  - unfold to_volts. destruct ic; reflexivity.
  - intros -> ->. split; [reflexivity |].
    destruct ic; vm_compute; reflexivity.
Qed.

Lemma getVoltage_conversion_witness :
  fst (getVoltage MAX17048 power_on_bus) = 2.56%float /\
  fst (getVoltage MAX17049 power_on_bus) = 5.12%float.
Proof.
  split.
  - apply (getVoltage_conversion MAX17048 power_on_bus 0x80 0x00);
      [concrete_bus | concrete_bus | reflexivity | reflexivity].
  - apply (getVoltage_conversion MAX17049 power_on_bus 0x80 0x00);
      [concrete_bus | concrete_bus | reflexivity | reflexivity].
Defined.

(** ** Completion codes *)

Lemma nth_code (codes : list Z) :
  hd 0 codes = nth 0 codes 0 /\
  hd 0 (tl codes) = nth 1 codes 0 /\
  hd 0 (tl (tl codes)) = nth 2 codes 0.
Proof. destruct codes as [| c0 [| c1 [| c2 codes]]]; repeat split. Qed.

Lemma drop_codes (codes : list Z) :
  tl codes = drop 1 codes /\
  tl (tl codes) = drop 2 codes /\
  tl (tl (tl codes)) = drop 3 codes.
Proof. destruct codes as [| c0 [| c1 [| c2 codes]]]; repeat split. Qed.

(** C9: every write-class method returns the completion code the transport
    gave when it closed the write transaction, whatever that code is and
    whatever the codes of the reads before it were; the write is attempted
    once, and the code is handed on as it is. *)
Theorem write_ops_return_completion_code (op : WriteOp) (b : Bus) :
  let r := fst (run_write_op op b) in
  let b' := snd (run_write_op op b) in
  r = nth (transactions op - 1) (pending b) 0 /\
  (exists x y, last_transaction b' = Some ([written_register op; x; y], r)) /\
  length (traffic b') = (transactions op + length (traffic b))%nat /\
  pending b' = drop (transactions op) (pending b).
Proof.
  destruct (nth_code (pending b)) as (N0 & N1 & N2).
  destruct (drop_codes (pending b)) as (D1 & D2 & D3).
  destruct b as [regs ptr addr tx rx codes log].
  cbn [pending traffic] in *.
  destruct op; cbn [run_write_op transactions written_register Nat.sub];
    wire_unfold; cbn;
    rewrite <- ?N0, <- ?N1, <- ?N2, <- ?D1, <- ?D2, <- ?D3;
    (split; [reflexivity |]); (split; [| split; reflexivity]);
    unfold last_transaction; cbn; closed_consts; eauto.
Qed.

(** ** What [sleep] and [wake] write *)

(** [sleep] and [wake] take the threshold from [getAlertThreshold], which is
    the decoded percent, and write it where the encoded field belongs. *)
Lemma sleep_wake_write_percent (b : Bus) (comp status : Z) :
  healthy b -> holds_config b comp status ->
  last_transaction (snd (sleep b)) =
    Some ([MAX1704X_CONFIG_ADDR; comp; Z.lor 0x80 (decodeThreshold status)], 0) /\
  last_transaction (snd (wake b)) =
    Some ([MAX1704X_CONFIG_ADDR; comp; Z.land 0x7F (decodeThreshold status)], 0) /\
  peek (chip_regs (snd (sleep b))) MAX1704X_CONFIG_ADDR = comp /\
  peek (chip_regs (snd (wake b))) MAX1704X_CONFIG_ADDR = comp.
Proof.
  intros Hcodes Hconfig.
  rewrite (sleep_run b comp status Hcodes Hconfig).
  rewrite (wake_run b comp status Hcodes Hconfig).
  cbn [fst snd chip_regs config_written]. unfold last_transaction. cbn [traffic head].
  rewrite !(peek_poke_ne _ MAX1704X_ATHRD_ADDR MAX1704X_CONFIG_ADDR)
    by (unfold MAX1704X_ATHRD_ADDR, MAX1704X_CONFIG_ADDR; lia).
  rewrite !peek_poke_eq. repeat split; reflexivity.
Qed.

Lemma sleep_wake_write_percent_witness :
  last_transaction (snd (sleep power_on_bus)) =
    Some ([MAX1704X_CONFIG_ADDR; 0x97; Z.lor 0x80 (decodeThreshold 0x1C)], 0).
Proof.
  apply (sleep_wake_write_percent power_on_bus 0x97 0x1C); concrete_bus.
Defined.

(** C1, at the power-on state (RCOMP 0x97, status 0x1C: awake, threshold 4%):
    [sleep] leaves 0x84 in the status byte.  Bit 7 is the bit [sleep] is
    there to set; the bits below it were 0x1C and are 0x04, and the threshold
    read back is 28% where it was 4%. *)
Theorem sleep_changes_threshold_bits :
  holds_config power_on_bus 0x97 0x1C /\
  fst (sleep power_on_bus) = 0 /\
  holds_config (snd (sleep power_on_bus)) 0x97 0x84 /\
  Z.land 0x1C 0x7F = 0x1C /\
  Z.land 0x84 0x7F = 0x04 /\
  fst (getAlertThreshold power_on_bus) = 4 /\
  fst (getAlertThreshold (snd (sleep power_on_bus))) = 28.
Proof.
  assert (H0 : healthy power_on_bus) by concrete_bus.
  assert (H1 : holds_config power_on_bus 0x97 0x1C) by concrete_bus.
  split; [exact H1 |].
  rewrite (sleep_run _ _ _ H0 H1). cbn [fst snd].
  change (Z.lor 0x80 (decodeThreshold 0x1C)) with 0x84.
  assert (H2 : holds_config (config_written power_on_bus 0x97 0x84
                 [([MAX1704X_ATHRD_ADDR], 0); ([MAX1704X_RCOMP_ADDR], 0)]) 0x97 0x84)
    by (apply config_written_holds; unfold is_byte; lia).
  rewrite (getAlertThreshold_run _ _ _ H0 H1).
  rewrite (getAlertThreshold_run _ _ _ (config_written_healthy _ H0 _ _ _) H2).
  repeat split; try apply H2; vm_compute; reflexivity.
Qed.

(** C2, at the same state: the status byte [sleep] writes is 0x84 and not
    [0x80 | 0x1C = 0x9C]; the one [wake] writes is 0x04 and not
    [0x7F & 0x1C = 0x1C]; neither keeps the encoded threshold 0x1C in bits
    4-0.  The compensation byte is written back as it was. *)
Theorem sleep_wake_status_bytes :
  last_transaction (snd (sleep power_on_bus)) =
    Some ([MAX1704X_CONFIG_ADDR; 0x97; 0x84], 0) /\
  last_transaction (snd (wake power_on_bus)) =
    Some ([MAX1704X_CONFIG_ADDR; 0x97; 0x04], 0) /\
  Z.lor 0x80 (encodeThreshold 4) = 0x9C /\
  Z.land 0x7F (encodeThreshold 4) = 0x1C /\
  Z.land 0x84 0x1F = 0x04 /\
  Z.land 0x04 0x1F = 0x04 /\
  encodeThreshold 4 = 0x1C.
Proof.
  assert (H0 : healthy power_on_bus) by concrete_bus.
  assert (H1 : holds_config power_on_bus 0x97 0x1C) by concrete_bus.
  rewrite (sleep_run _ _ _ H0 H1), (wake_run _ _ _ H0 H1).
  repeat split; vm_compute; reflexivity.
Qed.

(** ** What the other writes keep *)

(** [setCompensation] stores its argument in the high byte and writes the
    status byte back as it read it. *)
Lemma setCompensation_keeps_status (c : Z) (b : Bus) (comp status : Z) :
  is_byte c -> healthy b -> holds_config b comp status ->
  fst (setCompensation c b) = 0 /\
  last_transaction (snd (setCompensation c b)) =
    Some ([MAX1704X_CONFIG_ADDR; c; status], 0) /\
  holds_config (snd (setCompensation c b)) c status.
Proof.
  intros Bc Hcodes Hconfig.
  rewrite (setCompensation_run b comp status Hcodes Hconfig).
  rewrite (u8_byte c) by exact Bc. cbn [fst snd].
  split; [reflexivity |]. split; [reflexivity |].
  apply config_written_holds; [exact Bc | apply Hconfig].
Qed.

Lemma setCompensation_keeps_status_witness :
  holds_config (snd (setCompensation 0x55 alerted_bus)) 0x55 0x3C.
Proof.
  apply (setCompensation_keeps_status 0x55 alerted_bus 0x97 0x3C);
    [unfold is_byte; lia | concrete_bus | concrete_bus].
Defined.

(** [setAlertThreshold] keeps bit 7 of the status byte and nothing else of
    it: the byte written is [(status & 0x80) | ((-t) & 0x1F)] with [t] the
    input clamped to 1..32, so bits 6 and 5 are written as 0 and an alert
    flag that was set is cleared. *)
Lemma setAlertThreshold_status_byte (thrd : Z) (b : Bus) (comp status : Z) :
  is_byte thrd -> healthy b -> holds_config b comp status ->
  let status' :=
    Z.lor (Z.land status 0x80) (Z.land (- Z.max 1 (Z.min 32 thrd)) 0x1F) in
  last_transaction (snd (setAlertThreshold thrd b)) =
    Some ([MAX1704X_CONFIG_ADDR; comp; status'], 0) /\
  holds_config (snd (setAlertThreshold thrd b)) comp status' /\
  Z.testbit status' 6 = false /\
  Z.testbit status' 5 = false.
Proof.
  intros Bt Hcodes Hconfig.
  rewrite <- (encodeThreshold_explicit thrd). intros status'.
  rewrite (setAlertThreshold_run b comp status Hcodes Hconfig).
  rewrite (u8_byte thrd) by exact Bt.
  cbn [snd]. fold status'.
  assert (Bs' : is_byte status').
  { apply lor_is_byte; [| apply encodeThreshold_is_byte].
    apply land_is_byte; [apply Hconfig | unfold is_byte; lia]. }
  split; [reflexivity |].
  split; [apply config_written_holds; [apply Hconfig | exact Bs'] |].
  pose proof (encodeThreshold_range thrd) as He.
  assert (Hhigh : forall n, 5 <= n -> Z.testbit (encodeThreshold thrd) n = false).
  { intros n Hn.
    destruct (Z.eq_dec (encodeThreshold thrd) 0) as [-> | Hne];
      [apply Z.testbit_0_l |].
    apply Z.bits_above_log2; [lia |].
    apply Z.lt_le_trans with 5; [| exact Hn].
    apply Z.log2_lt_pow2; [lia | change (2 ^ 5) with 32; lia]. }
  unfold status'. rewrite !Z.lor_spec, !Z.land_spec, !Hhigh by lia.
  change (Z.testbit 0x80 6) with false. change (Z.testbit 0x80 5) with false.
  rewrite !andb_false_r. split; reflexivity.
Qed.

Lemma setAlertThreshold_status_byte_witness :
  last_transaction (snd (setAlertThreshold 10 alerted_bus)) =
    Some ([MAX1704X_CONFIG_ADDR; 0x97; 0x16], 0) /\
  last_transaction (snd (setAlertThreshold 0 alerted_bus)) =
    Some ([MAX1704X_CONFIG_ADDR; 0x97; 0x1F], 0).
Proof.
  pose proof (setAlertThreshold_status_byte 10 alerted_bus 0x97 0x3C) as H10.
  pose proof (setAlertThreshold_status_byte 0 alerted_bus 0x97 0x3C) as H0.
  cbv zeta in H10, H0.
  destruct H10 as [H10 _]; [unfold is_byte; lia | concrete_bus | concrete_bus |].
  destruct H0 as [H0 _]; [unfold is_byte; lia | concrete_bus | concrete_bus |].
  split; [exact H10 | exact H0].
Defined.

(** ** Two runs on concrete buses *)

(** Threshold 10% on the power-on chip: the write carries RCOMP 0x97 and the
    status byte 0x16, and the threshold read back is 10. *)
Example setAlertThreshold_10 :
  last_transaction (snd (setAlertThreshold 10 power_on_bus)) =
    Some ([MAX1704X_CONFIG_ADDR; 0x97; 0x16], 0) /\
  fst (getAlertThreshold (snd (setAlertThreshold 10 power_on_bus))) = 10.
Proof. split; vm_compute; reflexivity. Qed.

(** An argument that does not fit a [uint8_t] is converted first: 256 is 0,
    which the clamp raises to 1. *)
Example setAlertThreshold_256 :
  last_transaction (snd (setAlertThreshold 256 power_on_bus)) =
    Some ([MAX1704X_CONFIG_ADDR; 0x97; 0x1F], 0) /\
  fst (getAlertThreshold (snd (setAlertThreshold 256 power_on_bus))) = 1.
Proof. split; vm_compute; reflexivity. Qed.

(** A write the transport closes with code 3 returns 3 and leaves the chip as
    it was. *)
Example setCompensation_failed_write :
  fst (setCompensation 0x55 (idle_bus power_on_regs [0; 3])) = 3 /\
  holds_config (snd (setCompensation 0x55 (idle_bus power_on_regs [0; 3]))) 0x97 0x1C.
Proof.
  split; [vm_compute; reflexivity |].
  unfold holds_config, is_byte. repeat split; try lia; vm_compute; reflexivity.
Qed.

(** ** The methods that only read *)

Ltac wire_unfold_all :=
  cbv beta iota zeta delta
    [run_read_op run_measurement getSOC getVersion getVoltage reset quickStart
     sleeping wake sleep clearAlertInterrupt setAlertThreshold setCompensation
     getAlertThreshold getStatus getCompensation bind ret read requestFrom
     endTransmission write beginTransmission chip_regs chip_ptr tx_addr tx_buf
     rx_buf pending traffic app MAX1704X_VCELL_ADDR MAX1704X_SOC_ADDR
     MAX1704X_MODE_ADDR MAX1704X_VERSION_ADDR MAX1704X_CONFIG_ADDR
     MAX1704X_RCOMP_ADDR MAX1704X_ATHRD_ADDR MAX1704X_COMMAND_ADDR].

(** A transaction that carries a register address and no data stores
    nothing, whether it reaches the chip or not. *)
Lemma address_only_keeps_regs (code addr a : Z) (regs : gmap Z Z) :
  (if reaches_chip code addr then deliver_regs regs [a] else regs) = regs.
Proof. destruct (reaches_chip code addr); reflexivity. Qed.

Ltac same_regs :=
  match goal with
  | |- context [if reaches_chip ?c ?a then ?r else ?r] =>
      change (if reaches_chip c a then r else r)
        with (if reaches_chip c a then deliver_regs r [0] else r);
      rewrite address_only_keeps_regs
  end.

(** The methods that read a register never change a register of the chip,
    whatever the completion codes are; each closes one transaction, which
    carries the register address alone, and takes no notice of its code. *)
Theorem readers_leave_chip_untouched (op : ReadOp) (b : Bus) :
  let b' := snd (run_read_op op b) in
  chip_regs b' = chip_regs b /\
  last_transaction b' = Some ([read_register op], nth 0 (pending b) 0) /\
  length (traffic b') = S (length (traffic b)) /\
  pending b' = drop 1 (pending b).
Proof.
  destruct (nth_code (pending b)) as (N0 & _).
  destruct (drop_codes (pending b)) as (D1 & _).
  destruct b as [regs ptr addr tx rx codes log].
  cbn [pending traffic chip_regs] in *.
  destruct op; cbn [read_register]; wire_unfold_all; cbn;
    same_regs; rewrite <- N0, <- D1; closed_consts; repeat split.
Qed.

(** ** The measurements *)

(** [getVoltage] and [getSOC] always close three transactions: the reset
    command 0x5400 to register 0xFE, the quick-start command 0x4000 to
    register 0x06, and the address of the register to read.  The completion
    codes of the two commands are not looked at: the read goes on after a
    command that failed. *)
Theorem measurements_reset_first (m : Measurement) (b : Bus) :
  let b' := snd (run_measurement m b) in
  traffic b' =
    ([measured_register m], nth 2 (pending b) 0)
    :: ([MAX1704X_MODE_ADDR; 0x40; 0x00], nth 1 (pending b) 0)
    :: ([MAX1704X_COMMAND_ADDR; 0x54; 0x00], nth 0 (pending b) 0)
    :: traffic b /\
  pending b' = drop 3 (pending b).
Proof.
  destruct (nth_code (pending b)) as (N0 & N1 & N2).
  destruct (drop_codes (pending b)) as (_ & _ & D3).
  destruct b as [regs ptr addr tx rx codes log].
  cbn [pending traffic] in *.
  destruct m; cbn [measured_register]; wire_unfold_all; cbn;
    rewrite <- N0, <- N1, <- N2, <- D3; closed_consts; split; reflexivity.
Qed.

Ltac wire_run_all :=
  match goal with
  | H : healthy ?b |- _ =>
      destruct b; unfold healthy, holds_word in *;
      cbv beta iota zeta delta
        [chip_regs pending traffic MAX1704X_SOC_ADDR MAX1704X_VERSION_ADDR] in *;
      wire_unfold_all; cbn; repeat (code_zero H; cbn); closed_consts
  end.

Lemma float_eqb_eq (x y : float) : PrimFloat.Leibniz.eqb x y = true -> x = y.
Proof. apply Leibniz.eqb_spec. Qed.

Lemma getSOC_run (b : Bus) (hi lo : Z) :
  healthy b -> holds_word b MAX1704X_SOC_ADDR hi lo ->
  fst (getSOC b) = soc_percent hi lo.
Proof.
  intros Hcodes (Hhi & Hlo & Bhi & Blo). wire_run_all.
  change (4 + 1) with 5 in Hlo.
  rewrite !peek_poke_ne by lia. rewrite Hhi, Hlo. reflexivity.
Qed.

(** The sum of [getSOC] is exact on bytes: it is the 16-bit register value
    divided by 256, with no rounding, and lies from 0 up to, not including,
    256. *)
Lemma soc_percent_exact (hi lo : Z) :
  is_byte hi -> is_byte lo ->
  soc_percent hi lo =
    PrimFloat.div (double_of_int (hi * 256 + lo)) (double_of_int 256) /\
  PrimFloat.leb 0 (soc_percent hi lo) = true /\
  PrimFloat.ltb (soc_percent hi lo) 256 = true.
Proof.
  intros Bhi Blo.
  pose proof (byte_forall2_spec
    (fun hi lo =>
       PrimFloat.Leibniz.eqb (soc_percent hi lo)
         (PrimFloat.div (double_of_int (hi * 256 + lo)) (double_of_int 256)) &&
       PrimFloat.leb 0 (soc_percent hi lo) &&
       PrimFloat.ltb (soc_percent hi lo) 256)
    ltac:(vm_compute; reflexivity) hi lo Bhi Blo) as H.
  cbv beta in H.
  apply andb_true_iff in H. destruct H as [H H3].
  apply andb_true_iff in H. destruct H as [H1 H2].
  apply float_eqb_eq in H1. repeat split; assumption.
Qed.

(** [getSOC] returns the state-of-charge register, read high byte first, as
    a number of 1/256 percent: [raw16 / 256] exactly, a value from 0 up to,
    not including, 256. *)
Theorem getSOC_exact (b : Bus) (hi lo : Z) :
  healthy b -> holds_word b MAX1704X_SOC_ADDR hi lo ->
  fst (getSOC b) =
    PrimFloat.div (double_of_int (hi * 256 + lo)) (double_of_int 256) /\
  fst (getSOC b) =
    PrimFloat.add (double_of_int hi) (PrimFloat.div (double_of_int lo) 256) /\
  PrimFloat.leb 0 (fst (getSOC b)) = true /\
  PrimFloat.ltb (fst (getSOC b)) 256 = true.
Proof.
  intros Hcodes Hword.
  rewrite (getSOC_run b hi lo Hcodes Hword).
  destruct (soc_percent_exact hi lo) as (H1 & H2 & H3);
    [apply Hword | apply Hword |].
  repeat split; assumption.
Qed.

Ltac concrete_word :=
  lazymatch goal with
  | |- healthy _ => unfold healthy; cbn; constructor
  | |- holds_word _ _ _ _ =>
      unfold holds_word, is_byte; repeat split; try lia; vm_compute; reflexivity
  end.

Lemma getSOC_exact_witness : fst (getSOC gauge_bus) = 50.5%float.
Proof.
  apply (getSOC_exact gauge_bus 50 128); concrete_word.
Defined.

Lemma to_volts_scale (hi lo : Z) :
  is_byte hi -> is_byte lo ->
  to_volts MAX17048 (vcell_value hi lo) =
    PrimFloat.mul (double_of_int (vcell_value hi lo)) 0.00125%float /\
  to_volts MAX17049 (vcell_value hi lo) =
    PrimFloat.mul 2 (to_volts MAX17048 (vcell_value hi lo)).
Proof.
  intros Bhi Blo.
  pose proof (byte_forall2_spec
    (fun hi lo =>
       PrimFloat.Leibniz.eqb (to_volts MAX17048 (vcell_value hi lo))
         (PrimFloat.mul (double_of_int (vcell_value hi lo)) 0.00125%float) &&
       PrimFloat.Leibniz.eqb (to_volts MAX17049 (vcell_value hi lo))
         (PrimFloat.mul 2 (to_volts MAX17048 (vcell_value hi lo))))
    ltac:(vm_compute; reflexivity) hi lo Bhi Blo) as H.
  cbv beta in H.
  apply andb_true_iff in H. destruct H as [H1 H2].
  apply float_eqb_eq in H1, H2. split; assumption.
Qed.

(** The value [getVoltage] scales has 12 bits: the high byte times 16 plus
    the high nibble of the low byte, so the low four bits of the register do
    not count.  For the same register the MAX17049 reading is twice the
    MAX17048 reading, with no rounding between the two. *)
Theorem getVoltage_scale (b : Bus) (hi lo : Z) :
  healthy b -> holds_vcell b hi lo ->
  fst (getVoltage MAX17048 b) =
    PrimFloat.mul (double_of_int (hi * 16 + lo / 16)) 0.00125%float /\
  fst (getVoltage MAX17049 b) = PrimFloat.mul 2 (fst (getVoltage MAX17048 b)) /\
  0 <= hi * 16 + lo / 16 <= 4095.
Proof.
  intros Hcodes Hvcell.
  destruct (getVoltage_run MAX17048 b hi lo Hcodes Hvcell) as [H48 _].
  destruct (getVoltage_run MAX17049 b hi lo Hcodes Hvcell) as [H49 _].
  destruct Hvcell as (_ & _ & Bhi & Blo).
  destruct (to_volts_scale hi lo Bhi Blo) as [H1 H2].
  assert (Hv : vcell_value hi lo = hi * 16 + lo / 16).
  { unfold vcell_value. unfold is_byte in *.
    rewrite Z.shiftl_mul_pow2, Z.shiftr_div_pow2 by lia. reflexivity. }
  rewrite H48, H49, H2, H1, Hv.
  split; [reflexivity |]. split; [reflexivity |].
  unfold is_byte in *. Z.div_mod_to_equations. lia.
Qed.

Lemma getVoltage_scale_witness :
  fst (getVoltage MAX17049 power_on_bus) =
    PrimFloat.mul 2 (fst (getVoltage MAX17048 power_on_bus)).
Proof.
  apply (getVoltage_scale power_on_bus 0x80 0x00); concrete_bus.
Defined.

(** ** The version *)

Section IntWidth.

Variable bits : Z.
Hypothesis Hbits : 16 <= bits.

Lemma int_of_fits (z : Z) :
  - 2 ^ (bits - 1) <= z < 2 ^ (bits - 1) -> int_of bits z = z.
Proof.
  intros Hz. unfold int_of.
  replace (2 ^ bits) with (2 * 2 ^ (bits - 1))
    by (rewrite <- Z.pow_succ_r by lia; f_equal; lia).
  rewrite Z.mod_small by lia. lia.
Qed.

Lemma int_of_wraps (z : Z) :
  2 ^ (bits - 1) <= z < 2 ^ bits -> int_of bits z = z - 2 ^ bits.
Proof.
  intros Hz. unfold int_of.
  assert (Hp : 2 ^ bits = 2 * 2 ^ (bits - 1))
    by (rewrite <- Z.pow_succ_r by lia; f_equal; lia).
  rewrite Hp in *.
  assert (Hm : (z + 2 ^ (bits - 1)) mod (2 * 2 ^ (bits - 1)) = z - 2 ^ (bits - 1))
    by (symmetry; apply Z.mod_unique with 1; lia).
  rewrite Hm. lia.
Qed.

Lemma half_range : exists k, 1 <= k /\ 2 ^ (bits - 1) = 32768 * k.
Proof.
  exists (2 ^ (bits - 16)). split.
  - pose proof (Z.pow_pos_nonneg 2 (bits - 16)). lia.
  - change 32768 with (2 ^ 15). rewrite <- Z.pow_add_r by lia. f_equal. lia.
Qed.

Lemma version_value (hi lo : Z) :
  is_byte hi -> is_byte lo ->
  int_of bits (int_of bits (Z.shiftl hi 8) + lo) =
    if hi * 256 + lo <? 2 ^ (bits - 1)
    then hi * 256 + lo
    else hi * 256 + lo - 2 ^ bits.
Proof.
  unfold is_byte. intros Bhi Blo.
  destruct half_range as (k & Hk & Hhalf).
  assert (Hp : 2 ^ bits = 2 * 2 ^ (bits - 1))
    by (rewrite <- Z.pow_succ_r by lia; f_equal; lia).
  rewrite Z.shiftl_mul_pow2 by lia. change (2 ^ 8) with 256.
  destruct (hi * 256 + lo <? 2 ^ (bits - 1)) eqn:Hlt.
  - apply Z.ltb_lt in Hlt.
    rewrite (int_of_fits (hi * 256)) by lia.
    apply int_of_fits. lia.
  - apply Z.ltb_ge in Hlt.
    assert (Hhi : 2 ^ (bits - 1) <= hi * 256) by lia.
    rewrite (int_of_wraps (hi * 256)) by lia.
    rewrite int_of_fits by lia. lia.
Qed.

End IntWidth.

Lemma getVersion_run (bits : Z) (b : Bus) (hi lo : Z) :
  healthy b -> holds_word b MAX1704X_VERSION_ADDR hi lo ->
  fst (getVersion bits b) = int_of bits (int_of bits (Z.shiftl hi 8) + lo).
Proof.
  intros Hcodes (Hhi & Hlo & Bhi & Blo). wire_run_all.
  change (8 + 1) with 9 in Hlo.
  rewrite Hhi, Hlo, !u8_byte by assumption. reflexivity.
Qed.

(** [getVersion] puts the two bytes of the version register together high
    byte first.  Where [int] has more than 16 bits the result is the 16-bit
    register value; where it has 16, a register value of 0x8000 or more comes
    back lowered by 65536, a negative number.  In both cases the low 16 bits
    of the result are the register. *)
Theorem getVersion_big_endian (bits : Z) (b : Bus) (hi lo : Z) :
  16 <= bits -> healthy b -> holds_word b MAX1704X_VERSION_ADDR hi lo ->
  fst (getVersion bits b) =
    (if hi * 256 + lo <? 2 ^ (bits - 1)
     then hi * 256 + lo
     else hi * 256 + lo - 2 ^ bits) /\
  fst (getVersion bits b) mod 65536 = hi * 256 + lo /\
  (17 <= bits -> fst (getVersion bits b) = hi * 256 + lo) /\
  (bits = 16 -> 0x80 <= hi -> fst (getVersion bits b) = hi * 256 + lo - 65536).
Proof.
  intros Hbits Hcodes Hword.
  rewrite (getVersion_run bits b hi lo Hcodes Hword).
  destruct Hword as (_ & _ & Bhi & Blo).
  rewrite (version_value bits Hbits hi lo Bhi Blo).
  unfold is_byte in *.
  assert (Hpow : 2 ^ bits = 65536 * 2 ^ (bits - 16)).
  { change 65536 with (2 ^ 16). rewrite <- Z.pow_add_r by lia. f_equal. lia. }
  split; [reflexivity |]. split; [| split].
  - destruct (hi * 256 + lo <? 2 ^ (bits - 1)).
    + apply Z.mod_small. lia.
    + rewrite Hpow.
      replace (hi * 256 + lo - 65536 * 2 ^ (bits - 16))
        with (hi * 256 + lo + (- 2 ^ (bits - 16)) * 65536) by lia.
      rewrite Z_mod_plus_full. apply Z.mod_small. lia.
  - intros H17.
    assert (Hbig : 2 ^ 16 <= 2 ^ (bits - 1)) by (apply Z.pow_le_mono_r; lia).
    change (2 ^ 16) with 65536 in Hbig.
    destruct (hi * 256 + lo <? 2 ^ (bits - 1)) eqn:Hlt; [reflexivity |].
    apply Z.ltb_ge in Hlt. lia.
  - intros -> Hhi. change (2 ^ (16 - 1)) with 32768. change (2 ^ 16) with 65536.
    destruct (hi * 256 + lo <? 32768) eqn:Hlt; [| reflexivity].
    apply Z.ltb_lt in Hlt. lia.
Qed.

Lemma getVersion_big_endian_witness :
  fst (getVersion 32 odd_version_bus) = 0x8001 /\
  fst (getVersion 16 odd_version_bus) = 0x8001 - 65536.
Proof.
  split.
  - apply (getVersion_big_endian 32 odd_version_bus 0x80 0x01);
      [lia | concrete_word | concrete_word | lia].
  - apply (getVersion_big_endian 16 odd_version_bus 0x80 0x01);
      [lia | concrete_word | concrete_word | reflexivity | lia].
Defined.

(** ** How the writes to the configuration register compose *)

Lemma decode_after_sleep (s : Z) :
  is_byte s ->
  decodeThreshold s = 32 - Z.land s 0x1F /\
  decodeThreshold (Z.lor 0x80 (decodeThreshold s)) =
    (if decodeThreshold s =? 32 then 32 else 32 - decodeThreshold s) /\
  decodeThreshold (Z.land 0x7F (decodeThreshold s)) =
    (if decodeThreshold s =? 32 then 32 else 32 - decodeThreshold s) /\
  Z.land 0x7F (decodeThreshold (Z.lor 0x80 (decodeThreshold s))) =
    (if Z.land s 0x1F =? 0 then 0x20 else Z.land s 0x1F).
Proof.
  intros Bs.
  pose proof (byte_forall_spec
    (fun s =>
       (decodeThreshold s =? 32 - Z.land s 0x1F) &&
       (decodeThreshold (Z.lor 0x80 (decodeThreshold s)) =?
          (if decodeThreshold s =? 32 then 32 else 32 - decodeThreshold s)) &&
       (decodeThreshold (Z.land 0x7F (decodeThreshold s)) =?
          (if decodeThreshold s =? 32 then 32 else 32 - decodeThreshold s)) &&
       (Z.land 0x7F (decodeThreshold (Z.lor 0x80 (decodeThreshold s))) =?
          (if Z.land s 0x1F =? 0 then 0x20 else Z.land s 0x1F)))
    ltac:(vm_compute; reflexivity) s Bs) as H.
  cbv beta in H.
  apply andb_true_iff in H. destruct H as [H H4].
  apply andb_true_iff in H. destruct H as [H H3].
  apply andb_true_iff in H. destruct H as [H1 H2].
  apply Z.eqb_eq in H1, H2, H3, H4. repeat split; assumption.
Qed.

(** The threshold [getAlertThreshold] returns is 32 minus the five low bits
    of the status byte; the sleep bit, bit 6 and the alert bit do not count. *)
Theorem getAlertThreshold_formula (b : Bus) (comp status : Z) :
  healthy b -> holds_config b comp status ->
  fst (getAlertThreshold b) = 32 - Z.land status 0x1F.
Proof.
  intros Hcodes Hconfig.
  rewrite (getAlertThreshold_run b comp status Hcodes Hconfig). cbn [fst].
  apply decode_after_sleep, Hconfig.
Qed.

Lemma getAlertThreshold_formula_witness :
  fst (getAlertThreshold asleep_bus) = 32 - Z.land 0x9C 0x1F.
Proof.
  apply (getAlertThreshold_formula asleep_bus 0x97 0x9C); concrete_bus.
Defined.

(** [sleep] and [wake] each turn a threshold of t% into (32 - t)%, and leave
    a threshold of 32% at 32%. *)
Theorem sleep_wake_flip_threshold (b : Bus) (comp status : Z) :
  healthy b -> holds_config b comp status ->
  let t := fst (getAlertThreshold b) in
  fst (getAlertThreshold (snd (sleep b))) = (if t =? 32 then 32 else 32 - t) /\
  fst (getAlertThreshold (snd (wake b))) = (if t =? 32 then 32 else 32 - t).
Proof.
  intros Hcodes Hconfig t. subst t.
  rewrite (getAlertThreshold_run b comp status Hcodes Hconfig).
  rewrite (sleep_run b comp status Hcodes Hconfig).
  rewrite (wake_run b comp status Hcodes Hconfig).
  cbn [fst snd].
  set (reads := [([MAX1704X_ATHRD_ADDR], 0); ([MAX1704X_RCOMP_ADDR], 0)]).
  pose proof (decodeThreshold_is_byte status) as Bd.
  assert (Bc : is_byte comp) by apply Hconfig.
  assert (Bsl : is_byte (Z.lor 0x80 (decodeThreshold status)))
    by (apply lor_is_byte; [unfold is_byte; lia | exact Bd]).
  assert (Bwk : is_byte (Z.land 0x7F (decodeThreshold status)))
    by (apply land_is_byte; [unfold is_byte; lia | exact Bd]).
  pose proof (config_written_healthy b Hcodes) as Hh.
  rewrite (getAlertThreshold_run _ comp _ (Hh _ _ _)
             (config_written_holds b comp _ reads Bc Bsl)).
  rewrite (getAlertThreshold_run _ comp _ (Hh _ _ _)
             (config_written_holds b comp _ reads Bc Bwk)).
  cbn [fst].
  destruct (decode_after_sleep status) as (_ & H1 & H2 & _); [apply Hconfig |].
  split; assumption.
Qed.

Lemma sleep_wake_flip_threshold_witness :
  fst (getAlertThreshold (snd (sleep power_on_bus))) =
    (if fst (getAlertThreshold power_on_bus) =? 32
     then 32 else 32 - fst (getAlertThreshold power_on_bus)).
Proof.
  pose proof (sleep_wake_flip_threshold power_on_bus 0x97 0x1C) as H.
  cbv zeta in H.
  destruct H as [H _]; [concrete_bus | concrete_bus | exact H].
Defined.

(** [sleep] followed by [wake] gives the threshold back: the chip is awake,
    the compensation byte and the threshold read as before [sleep], and the
    status byte holds the threshold bits alone, except that for a threshold
    of 32% it is 0x20, the alert bit. *)
Theorem sleep_then_wake (b : Bus) (comp status : Z) :
  healthy b -> holds_config b comp status ->
  let b' := snd (wake (snd (sleep b))) in
  fst (wake (snd (sleep b))) = 0 /\
  holds_config b' comp
    (if Z.land status 0x1F =? 0 then 0x20 else Z.land status 0x1F) /\
  fst (getAlertThreshold b') = fst (getAlertThreshold b) /\
  fst (getCompensation b') = fst (getCompensation b) /\
  fst (sleeping b') = false.
Proof.
  intros Hcodes Hconfig b'. subst b'.
  rewrite (sleep_run b comp status Hcodes Hconfig). cbn [snd].
  set (reads := [([MAX1704X_ATHRD_ADDR], 0); ([MAX1704X_RCOMP_ADDR], 0)]).
  pose proof (decodeThreshold_is_byte status) as Bd.
  assert (Bc : is_byte comp) by apply Hconfig.
  assert (Bs : is_byte status) by apply Hconfig.
  set (s1 := Z.lor 0x80 (decodeThreshold status)).
  assert (Bs1 : is_byte s1)
    by (apply lor_is_byte; [unfold is_byte; lia | exact Bd]).
  pose proof (config_written_healthy b Hcodes comp s1 reads) as Hh1.
  pose proof (config_written_holds b comp s1 reads Bc Bs1) as Hc1.
  rewrite (wake_run _ comp s1 Hh1 Hc1). cbn [fst snd]. fold reads.
  destruct (decode_after_sleep status Bs) as (Hd & _ & _ & Hback).
  fold s1 in Hback. rewrite Hback.
  set (s2 := if Z.land status 0x1F =? 0 then 0x20 else Z.land status 0x1F).
  assert (Bs2 : is_byte s2).
  { unfold s2. destruct (Z.land status 0x1F =? 0); [unfold is_byte; lia |].
    apply land_is_byte; [exact Bs | unfold is_byte; lia]. }
  set (b1 := config_written b comp s1 reads) in *.
  pose proof (config_written_healthy b1 Hh1 comp s2 reads) as Hh2.
  pose proof (config_written_holds b1 comp s2 reads Bc Bs2) as Hc2.
  rewrite (getAlertThreshold_run _ comp s2 Hh2 Hc2).
  rewrite (getCompensation_run _ comp s2 Hh2 Hc2).
  rewrite (sleeping_run _ comp s2 Hh2 Hc2).
  rewrite (getAlertThreshold_run b comp status Hcodes Hconfig).
  rewrite (getCompensation_run b comp status Hcodes Hconfig).
  cbn [fst].
  split; [reflexivity |]. split; [exact Hc2 |].
  assert (Hlow : 0 <= Z.land status 0x1F < 32)
    by (rewrite land_0x1F; apply Z.mod_pos_bound; lia).
  split; [| split; [reflexivity |]].
  - rewrite Hd, decodeThreshold_mod. unfold s2.
    destruct (Z.land status 0x1F =? 0) eqn:Hz.
    + apply Z.eqb_eq in Hz. rewrite Hz. reflexivity.
    + apply Z.eqb_neq in Hz. Z.div_mod_to_equations. lia.
  - unfold s2. destruct (Z.land status 0x1F =? 0); [reflexivity |].
    rewrite <- Z.land_assoc. change (Z.land 0x1F 0x80) with 0.
    rewrite Z.land_0_r. reflexivity.
Qed.

Lemma sleep_then_wake_witness :
  fst (getAlertThreshold (snd (wake (snd (sleep power_on_bus))))) =
  fst (getAlertThreshold power_on_bus).
Proof.
  pose proof (sleep_then_wake power_on_bus 0x97 0x1C) as H.
  cbv zeta in H.
  destruct H as (_ & _ & H & _); [concrete_bus | concrete_bus | exact H].
Defined.

(** [clearAlertInterrupt] changes nothing the getters report: the threshold,
    the sleep state and the compensation byte read after it are the ones read
    before it; and a second call writes the same two bytes as the first. *)
Theorem clearAlertInterrupt_keeps_readings (b : Bus) (comp status : Z) :
  healthy b -> holds_config b comp status ->
  let b' := snd (clearAlertInterrupt b) in
  fst (getAlertThreshold b') = fst (getAlertThreshold b) /\
  fst (sleeping b') = fst (sleeping b) /\
  fst (getCompensation b') = fst (getCompensation b) /\
  last_transaction (snd (clearAlertInterrupt b')) = last_transaction b'.
Proof.
  intros Hcodes Hconfig b'. subst b'.
  rewrite (clearAlertInterrupt_run b comp status Hcodes Hconfig). cbn [snd].
  set (reads := [([MAX1704X_ATHRD_ADDR], 0); ([MAX1704X_RCOMP_ADDR], 0)]).
  assert (Bc : is_byte comp) by apply Hconfig.
  assert (Bs : is_byte status) by apply Hconfig.
  set (s1 := Z.land 0xDF status).
  assert (Bs1 : is_byte s1)
    by (apply land_is_byte; [unfold is_byte; lia | exact Bs]).
  pose proof (config_written_healthy b Hcodes comp s1 reads) as Hh1.
  pose proof (config_written_holds b comp s1 reads Bc Bs1) as Hc1.
  rewrite (getAlertThreshold_run _ comp s1 Hh1 Hc1).
  rewrite (sleeping_run _ comp s1 Hh1 Hc1).
  rewrite (getCompensation_run _ comp s1 Hh1 Hc1).
  rewrite (clearAlertInterrupt_run _ comp s1 Hh1 Hc1).
  rewrite (getAlertThreshold_run b comp status Hcodes Hconfig).
  rewrite (sleeping_run b comp status Hcodes Hconfig).
  rewrite (getCompensation_run b comp status Hcodes Hconfig).
  cbn [fst snd]. unfold last_transaction, config_written. cbn [traffic head].
  destruct (land_0xDF_bits status) as (_ & _ & Hlow).
  fold s1 in Hlow.
  split; [| split; [| split; [reflexivity |]]].
  - rewrite <- (decodeThreshold_low_bits s1), Hlow.
    apply decodeThreshold_low_bits.
  - unfold s1. rewrite (Z.land_comm 0xDF status), <- Z.land_assoc. reflexivity.
  - unfold s1. rewrite Z.land_assoc. reflexivity.
Qed.

Lemma clearAlertInterrupt_keeps_readings_witness :
  fst (getAlertThreshold (snd (clearAlertInterrupt alerted_bus))) =
  fst (getAlertThreshold alerted_bus).
Proof.
  pose proof (clearAlertInterrupt_keeps_readings alerted_bus 0x97 0x3C) as H.
  cbv zeta in H.
  destruct H as [H _]; [concrete_bus | concrete_bus | exact H].
Defined.

(** Of two calls of [setAlertThreshold] the second decides: the chip ends
    with the bytes the second call would have written on its own, and the
    threshold read back is the second input clamped to 1..32. *)
Theorem setAlertThreshold_last_wins (t1 t2 : Z) (b : Bus) (comp status : Z) :
  is_byte t1 -> is_byte t2 -> healthy b -> holds_config b comp status ->
  let b1 := snd (setAlertThreshold t1 b) in
  last_transaction (snd (setAlertThreshold t2 b1)) =
    last_transaction (snd (setAlertThreshold t2 b)) /\
  holds_config (snd (setAlertThreshold t2 b1)) comp
    (Z.lor (Z.land status 0x80) (Z.land (- Z.max 1 (Z.min 32 t2)) 0x1F)) /\
  fst (getAlertThreshold (snd (setAlertThreshold t2 b1))) =
    Z.max 1 (Z.min 32 t2).
Proof.
  intros Bt1 Bt2 Hcodes Hconfig b1. subst b1.
  rewrite <- (encodeThreshold_explicit t2), <- (clampThreshold_max_min t2).
  rewrite (setAlertThreshold_run b comp status Hcodes Hconfig t1).
  rewrite (setAlertThreshold_run b comp status Hcodes Hconfig t2).
  rewrite (u8_byte t1) by exact Bt1.
  cbn [snd].
  set (reads := [([MAX1704X_CONFIG_ADDR], 0)]).
  assert (Bc : is_byte comp) by apply Hconfig.
  assert (Bs : is_byte status) by apply Hconfig.
  assert (B80 : is_byte (Z.land status 0x80))
    by (apply land_is_byte; [exact Bs | unfold is_byte; lia]).
  set (s1 := Z.lor (Z.land status 0x80) (encodeThreshold t1)).
  assert (Bs1 : is_byte s1)
    by (apply lor_is_byte; [exact B80 | apply encodeThreshold_is_byte]).
  pose proof (config_written_healthy b Hcodes comp s1 reads) as Hh1.
  pose proof (config_written_holds b comp s1 reads Bc Bs1) as Hc1.
  rewrite (setAlertThreshold_run _ comp s1 Hh1 Hc1 t2). cbn [snd]. fold reads.
  rewrite (u8_byte t2) by exact Bt2.
  set (s2 := Z.lor (Z.land status 0x80) (encodeThreshold t2)).
  assert (Bs2 : is_byte s2)
    by (apply lor_is_byte; [exact B80 | apply encodeThreshold_is_byte]).
  destruct (threshold_packing status (encodeThreshold t1) Bs
              (encodeThreshold_range t1)) as [H7 _].
  fold s1 in H7. rewrite H7. fold s2.
  set (b1 := config_written b comp s1 reads) in *.
  pose proof (config_written_healthy b1 Hh1 comp s2 reads) as Hh2.
  pose proof (config_written_holds b1 comp s2 reads Bc Bs2) as Hc2.
  rewrite (getAlertThreshold_run _ comp s2 Hh2 Hc2). cbn [fst].
  split; [reflexivity |]. split; [exact Hc2 |].
  destruct (threshold_packing status (encodeThreshold t2) Bs
              (encodeThreshold_range t2)) as [_ Hlow].
  fold s2 in Hlow.
  rewrite <- decodeThreshold_low_bits, Hlow. apply decode_encode.
Qed.

Lemma setAlertThreshold_last_wins_witness :
  fst (getAlertThreshold
         (snd (setAlertThreshold 20 (snd (setAlertThreshold 10 asleep_bus))))) = 20 /\
  fst (getAlertThreshold
         (snd (setAlertThreshold 0 (snd (setAlertThreshold 10 asleep_bus))))) = 1.
Proof.
  pose proof (setAlertThreshold_last_wins 10 20 asleep_bus 0x97 0x9C) as H20.
  pose proof (setAlertThreshold_last_wins 10 0 asleep_bus 0x97 0x9C) as H0.
  cbv zeta in H20, H0.
  destruct H20 as (_ & _ & H20);
    [unfold is_byte; lia | unfold is_byte; lia | concrete_bus | concrete_bus |].
  destruct H0 as (_ & _ & H0);
    [unfold is_byte; lia | unfold is_byte; lia | concrete_bus | concrete_bus |].
  split; [exact H20 | exact H0].
Defined.
